(** * PipelineStack: a shallow embedding of cdk_workshop/pipeline_stack.py

    The stack reads its configuration from the CDK context, builds a
    GitHub source, a synthesis ShellStep, five CodeBuildStep quality gates
    and one DeployStage, and registers constructs in the construct tree.
    Python values read from the context are modelled by [pyval]; the
    exceptions Python raises while subscripting them by [pyerr]; the
    construct tree registrations and the exceptions are threaded through a
    small state-and-error monad [M]. *)

From Stdlib Require Import Ascii String List Bool ZArith Lia.
Import ListNotations.
Open Scope string_scope.

(** ** Python values and the context *)

#[local] Set Warnings "-register-all".

Inductive pyval : Type :=
| PNone
| PBool (b : bool)
| PInt (z : Z)
| PStr (s : string)
| PDict (kvs : list (string * pyval)).

(** Python truthiness, as used by [x or "qa"]. *)
Definition truthy (v : pyval) : bool :=
  match v with
  | PNone => false
  | PBool b => b
  | PInt z => negb (Z.eqb z 0)
  | PStr s => negb (String.eqb s "")
  | PDict kvs => match kvs with [] => false | _ => true end
  end.

(** Dictionary lookup: the first binding of the key. *)
Fixpoint assoc {A} (k : string) (kvs : list (string * A)) : option A :=
  match kvs with
  | [] => None
  | (k', v) :: rest => if String.eqb k k' then Some v else assoc k rest
  end.

(** The CDK context of the stack's node (cdk.json and -c flags). *)
Definition context := list (string * pyval).

Inductive pyerr : Type :=
| TypeError (msg : string)
| KeyError (key : string)
| RuntimeError (msg : string).

(** Context values reach Python through the JSON bridge of the CDK
    bindings, which leaves out the null-valued entries of objects, at every
    depth; a null bound at the top is returned as [None]. *)
Fixpoint strip_nulls (v : pyval) : pyval :=
  match v with
  | PDict kvs =>
      PDict ((fix strip_entries (l : list (string * pyval)) :=
                match l with
                | [] => []
                | (_, PNone) :: rest => strip_entries rest
                | (k, x) :: rest => (k, strip_nulls x) :: strip_entries rest
                end) kvs)
  | _ => v
  end.

(** [node.try_get_context(key)]: the bound value, or [None] when absent.
    Its [key] parameter is typed [str]; a non-string argument is refused
    with a TypeError by the binding's type check. *)
Definition try_get_context (ctx : context) (key : pyval) : pyerr + pyval :=
  match key with
  | PStr k => inr (match assoc k ctx with
                   | Some v => strip_nulls v
                   | None => PNone
                   end)
  | _ => inl (TypeError "type of argument key must be str")
  end.

(** Python subscription [v[k]] with a string key. *)
Definition subscript (v : pyval) (k : string) : pyerr + pyval :=
  match v with
  | PDict kvs => match assoc k kvs with
                 | Some x => inr x
                 | None => inl (KeyError k)
                 end
  | PNone => inl (TypeError "'NoneType' object is not subscriptable")
  | PStr _ => inl (TypeError "string indices must be integers")
  | PBool _ => inl (TypeError "'bool' object is not subscriptable")
  | PInt _ => inl (TypeError "'int' object is not subscriptable")
  end.

(** ** State and error monad: construct paths registered so far *)

Definition M (A : Type) : Type := list string -> list string * (pyerr + A).

Definition ret {A} (a : A) : M A := fun st => (st, inr a).

Definition bind {A B} (m : M A) (f : A -> M B) : M B :=
  fun st => match m st with
            | (st', inl e) => (st', inl e)
            | (st', inr a) => f a st'
            end.

Definition lift {A} (r : pyerr + A) : M A := fun st => (st, r).

(** A construct created with [scope] as parent adds its path to the tree. *)
Definition register (path : string) : M unit := fun st => (app st [path], inr tt).

Notation "x <- m ;; k" := (bind m (fun x => k))
  (at level 61, m at next level, right associativity).
Notation "m ;;; k" := (bind m (fun _ => k))
  (at level 61, right associativity).

(** ** Descriptors built by the stack *)

(** [Source.git_hub(repo_string, branch, authentication)] *)
Record source := Source_git_hub {
  repo_string : pyval;
  branch : pyval;
  authentication : string  (* SecretValue.secrets_manager(name) *)
}.

Fixpoint count_slashes (s : string) : nat :=
  match s with
  | EmptyString => 0
  | String c rest =>
      (if Ascii.eqb c "/"%char then 1 else 0) + count_slashes rest
  end.

(** [Source.git_hub(repo_string, branch, authentication)]: both arguments
    are type-checked as [str] by the bindings, and the source raises unless
    [repo_string.split('/')] has exactly two parts ("<owner>/<repo>"). *)
Definition git_hub (repo_string branch : pyval) (authentication : string)
    : pyerr + source :=
  match repo_string, branch with
  | PStr r, PStr _ =>
      if Nat.eqb (count_slashes r) 1
      then inr (Source_git_hub repo_string branch authentication)
      else inl (RuntimeError
                  ("GitHub repository name should be a resolved string like '<owner>/<repo>', got '"
                   ++ r ++ "'"))
  | PStr _, _ => inl (TypeError "type of argument branch must be str")
  | _, _ => inl (TypeError "type of argument repo_string must be str")
  end.

Inductive build_image := STANDARD_7_0.
Inductive compute_type := SMALL.

Record build_environment := BuildEnvironment {
  be_build_image : build_image;
  be_compute_type : compute_type;
  be_privileged : bool
}.

(** [ShellStep(name, input, env, install_commands, commands)] *)
Record shell_step := ShellStep {
  ss_name : string;
  ss_input : source;
  ss_env : list (string * pyval);
  ss_install_commands : list string;
  ss_commands : list string
}.

(** [CodeBuildStep(name, input, build_environment, project_name,
    install_commands, commands)] *)
Record codebuild_step := CodeBuildStep {
  cb_name : string;
  cb_input : source;
  cb_build_environment : build_environment;
  cb_project_name : string;
  cb_install_commands : list string;
  cb_commands : list string
}.

(** [DeployStage(scope, construct_id, environment_type)] *)
Record deploy_stage := DeployStage {
  ds_construct_id : string;
  ds_environment_type : string
}.

(** A stage added with [pipeline.add_stage(stage, pre=steps)]. *)
Record stage_deployment := StageDeployment {
  sd_stage : deploy_stage;
  sd_pre : list codebuild_step
}.

Record code_pipeline := CodePipeline {
  pipeline_name : pyval;
  synth : shell_step;
  stages : list stage_deployment
}.

(** [CodePipeline(scope, id, pipeline_name=..., synth=...)]: the bindings
    type-check [pipeline_name] as [Optional[str]] before the construct is
    created. *)
Definition check_pipeline_name (name : pyval) : pyerr + pyval :=
  match name with
  | PStr _ | PNone => inr name
  | _ => inl (TypeError "type of argument pipeline_name must be one of (str, NoneType)")
  end.

Definition add_stage (p : code_pipeline) (st : deploy_stage)
    (pre : list codebuild_step) : code_pipeline :=
  CodePipeline (pipeline_name p) (synth p)
    (app (stages p) [StageDeployment st pre]).

(** ** create_code_quality_steps *)

Definition install_steps : list string :=
  [ "npm install -g aws-cdk";
    "python3 -m venv .env";
    "chmod +x .env/bin/activate";
    ". .env/bin/activate";
    "pip3 install -r requirements.txt";
    "pip3 install -r requirements-dev.txt" ].

Definition create_code_quality_steps (source_stage : source)
    : list codebuild_step :=
  let environment := BuildEnvironment STANDARD_7_0 SMALL true in
  [ CodeBuildStep "GitSecrets" source_stage environment
      "cdk-pipelines-git-secrets"
      [ "SECRETS_FOLDER=git-secrets";
        "mkdir $SECRETS_FOLDER";
        "git clone --quiet https://github.com/awslabs/git-secrets.git $SECRETS_FOLDER";
        "cd $SECRETS_FOLDER";
        "make install";
        "cd .. && rm -rf $SECRETS_FOLDER" ]
      [ "git secrets --register-aws";
        "git secrets --scan";
        "echo No vulnerabilities detected. Have a really nice day!" ];
    CodeBuildStep "Linter" source_stage environment
      "cdk-pipelines-linter"
      install_steps
      [ "python3 -m pylint cdk_workshop || true";
        "python3 -m pylint tests || true";
        "python3 -m pylint app.py || true" ];
    CodeBuildStep "UnitTests" source_stage environment
      "cdk-pipelines-unit-tests"
      install_steps
      [ "python3 -m pytest" ];
    CodeBuildStep "CfnNag" source_stage environment
      "cdk-pipelines-cfn-nag"
      (app install_steps [ "gem install cfn-nag" ])
      [ "ACCOUNT=$(aws sts get-caller-identity | jq -r '.Account')";
        "STACK_NAME=cdk-pipeline-scan";
        "cdk synth $STACK_NAME -c account=$ACCOUNT -c environmentType=$ENV_TYPE > template.yaml";
        "cfn_nag_scan --input-path template.yaml" ];
    CodeBuildStep "DependencyAudit" source_stage environment
      "cdk-pipelines-audit"
      install_steps
      [ "safety check -r requirements.txt";
        "safety check -r requirements-dev.txt" ] ].

(** ** PipelineStack.__init__ *)

(** [self.node.try_get_context("environmentType") or "qa"] *)
Definition resolve_environment_type (ctx : context) : pyerr + pyval :=
  match try_get_context ctx (PStr "environmentType") with
  | inr v => inr (if truthy v then v else PStr "qa")
  | inl e => inl e
  end.

(** The Context Resolver: the tag and [self.context]. *)
Definition resolve (ctx : context) : pyerr + (pyval * pyval) :=
  match resolve_environment_type ctx with
  | inl e => inl e
  | inr environment_type =>
      match try_get_context ctx environment_type with
      | inl e => inl e
      | inr bundle => inr (environment_type, bundle)
      end
  end.

Definition synth_install_commands : list string :=
  [ "npm install -g aws-cdk";
    "pip3 install -r requirements.txt";
    "pip3 install -r requirements-dev.txt";
    "ACCOUNT=$(aws sts get-caller-identity | jq -r .Account)" ].

Definition synth_commands : list string :=
  [ "cdk synth -c account=$ACCOUNT -c environmentType=$ENV_TYPE" ].

Definition child_path (construct_id child : string) : string :=
  construct_id ++ "/" ++ child.

(** The constructor: [construct_id] is the stack's own id; the result is
    the pipeline definition it builds. [DeployStage] lives in
    cdk_workshop/deploy_stage.py, which is not part of this development,
    and [pipeline.add_stage] synthesizes the stage it is given and raises
    when that stage holds no stack; the model records only the stage's own
    path and lets both succeed. The model therefore succeeds on every
    configuration the real constructor accepts (and on some it rejects at
    that last step): its theorems about successful runs, and about failures
    raised before the Pipeline construct is created, carry over. *)
Definition pipeline_stack_init (construct_id : string) (ctx : context)
    : M code_pipeline :=
  register construct_id ;;;
  environment_type <- lift (resolve_environment_type ctx) ;;
  self_context <- lift (try_get_context ctx environment_type) ;;
  repository <- lift (subscript self_context "repository") ;;
  repo_name <- lift (subscript repository "name") ;;
  repository' <- lift (subscript self_context "repository") ;;
  repo_branch <- lift (subscript repository' "branch") ;;
  source_stage <- lift (git_hub repo_name repo_branch "github-token") ;;
  pipeline_section <- lift (subscript self_context "pipeline") ;;
  name0 <- lift (subscript pipeline_section "name") ;;
  name <- lift (check_pipeline_name name0) ;;
  let synth_step :=
    ShellStep "Synth" source_stage [("ENV_TYPE", environment_type)]
      synth_install_commands synth_commands in
  register (child_path construct_id "Pipeline") ;;;
  let pipeline := CodePipeline name synth_step [] in
  let quality_steps := create_code_quality_steps source_stage in
  register (child_path construct_id "QA") ;;;
  let stage := DeployStage "QA" "qa" in
  ret (add_stage pipeline stage quality_steps).

(** Running the constructor from an empty construct tree. *)
Definition assemble (construct_id : string) (ctx : context)
    : list string * (pyerr + code_pipeline) :=
  pipeline_stack_init construct_id ctx [].

(** ** Observations on the definitions *)

(** The order in which CDK Pipelines runs what the stack declares: the
    synth step first, then for each added stage its [pre] steps followed by
    the stage's deployment. *)
Inductive pipeline_node :=
| NSynth (name : string)
| NPre (name : string)
| NStage (construct_id : string).

Definition pipeline_order (p : code_pipeline) : list pipeline_node :=
  NSynth (ss_name (synth p))
  :: concat (map (fun sd => app (map (fun s => NPre (cb_name s)) (sd_pre sd))
                                [NStage (ds_construct_id (sd_stage sd))])
                 (stages p)).

(** A ShellStep's install commands run in the install phase, before the
    commands of its build phase. *)
Definition shell_step_script (st : shell_step) : list string :=
  app (ss_install_commands st) (ss_commands st).

(** Ends with [suffix]. *)
Definition ends_with (suffix s : string) : bool :=
  (String.length suffix <=? String.length s)%nat
  && String.eqb (substring (String.length s - String.length suffix) (String.length suffix) s) suffix.

(** A shell command written [cmd || true] exits 0 whatever [cmd] does. *)
Definition exit_tolerant (cmd : string) : bool := ends_with " || true" cmd.

Definition contains (sub s : string) : bool :=
  match String.index 0 sub s with Some _ => true | None => false end.

(** The outcome of the constructor, forgetting the construct tree. *)
Definition assembled (construct_id : string) (ctx : context)
    : pyerr + code_pipeline :=
  snd (assemble construct_id ctx).

Definition quality_step_names : list string :=
  [ "GitSecrets"; "Linter"; "UnitTests"; "CfnNag"; "DependencyAudit" ].

Definition account_resolution : string :=
  "ACCOUNT=$(aws sts get-caller-identity | jq -r .Account)".

(** The Source Binding built from a settings bundle, as [__init__] does. *)
Definition bundle_source (bundle : pyval) : pyerr + source :=
  match subscript bundle "repository" with
  | inl e => inl e
  | inr repository =>
      match subscript repository "name" with
      | inl e => inl e
      | inr name =>
          match subscript repository "branch" with
          | inl e => inl e
          | inr br => git_hub name br "github-token"
          end
      end
  end.

(** ** Concrete configurations *)

Definition acme_qa_bundle : pyval :=
  PDict [ ("repository", PDict [("name", PStr "acme/app"); ("branch", PStr "main")]);
          ("pipeline", PDict [("name", PStr "acme-qa")]) ].

Definition acme_ctx : context := [ ("qa", acme_qa_bundle) ].

Example acme_assemble :
  option_map pipeline_name
    (match snd (assemble "CdkPipeline" acme_ctx) with
     | inr p => Some p | inl _ => None end) = Some (PStr "acme-qa").
Proof. reflexivity. Qed.

Definition prod_bundle : pyval :=
  PDict [ ("repository", PDict [("name", PStr "acme/app"); ("branch", PStr "release")]);
          ("pipeline", PDict [("name", PStr "acme-prod")]) ].

Definition prod_ctx : context :=
  [ ("environmentType", PStr "prod"); ("prod", prod_bundle) ].

Definition empty_name_bundle : pyval :=
  PDict [ ("repository", PDict [("name", PStr ""); ("branch", PStr "")]);
          ("pipeline", PDict [("name", PStr "")]) ].

Definition empty_name_ctx : context := [ ("qa", empty_name_bundle) ].


(** Both sections bound to null: the null entries are left out, so the
    first lookup, of "repository", raises KeyError. *)
Definition null_sections_bundle : pyval :=
  PDict [ ("repository", PNone); ("pipeline", PNone) ].


Example null_entries_dropped :
  resolve [("environmentType", PDict [("a", PNone)])] = inr (PStr "qa", PNone).
Proof. reflexivity. Qed.

Example repo_without_owner_refused :
  snd (assemble "PipelineStack"
         [("qa", PDict [ ("repository", PDict [("name", PStr "acme"); ("branch", PStr "main")]);
                         ("pipeline", PDict [("name", PStr "acme-qa")]) ])])
  = inl (RuntimeError "GitHub repository name should be a resolved string like '<owner>/<repo>', got 'acme'").
Proof. reflexivity. Qed.

Example empty_name_ctx_refused :
  assemble "PipelineStack" empty_name_ctx =
    (["PipelineStack"],
     inl (RuntimeError "GitHub repository name should be a resolved string like '<owner>/<repo>', got ''")).
Proof. reflexivity. Qed.

Example exit_tolerant_lint : exit_tolerant "python3 -m pylint tests || true" = true.
Proof. reflexivity. Qed.

Example exit_tolerant_pytest : exit_tolerant "python3 -m pytest" = false.
Proof. reflexivity. Qed.

Example prod_order :
  match assembled "S" prod_ctx with
  | inr p => pipeline_order p
  | inl _ => []
  end = [NSynth "Synth"; NPre "GitSecrets"; NPre "Linter"; NPre "UnitTests";
         NPre "CfnNag"; NPre "DependencyAudit"; NStage "QA"].
Proof. reflexivity. Qed.

(** ** Shape of a successful assembly *)

Lemma try_get_context_str ctx key v :
  try_get_context ctx key = inr v -> exists k, key = PStr k.
Proof. destruct key; cbn; intros H; try discriminate; eauto. Qed.

Lemma assembled_inv id ctx p :
  assembled id ctx = inr p ->
  exists tag bundle src name,
    resolve ctx = inr (PStr tag, bundle) /\
    bundle_source bundle = inr src /\
    (exists sec, subscript bundle "pipeline" = inr sec /\
                 subscript sec "name" = inr name) /\
    p = CodePipeline name
          (ShellStep "Synth" src [("ENV_TYPE", PStr tag)]
             synth_install_commands synth_commands)
          [StageDeployment (DeployStage "QA" "qa")
             (create_code_quality_steps src)].
Proof.
  unfold assembled, assemble, pipeline_stack_init, resolve, bundle_source,
    bind, register, lift, ret, add_stage.
  cbn -[resolve_environment_type try_get_context subscript git_hub
        check_pipeline_name create_code_quality_steps].
  destruct (resolve_environment_type ctx) as [e|env]; [discriminate|].
  destruct (try_get_context ctx env) as [e|bundle] eqn:Hb; [discriminate|].
  destruct (try_get_context_str _ _ _ Hb) as [tag ->].
  destruct (subscript bundle "repository") as [e|repo] eqn:Hr; [discriminate|].
  destruct (subscript repo "name") as [e|nm] eqn:Hnm; [discriminate|].
  destruct (subscript repo "branch") as [e|br] eqn:Hbr; [discriminate|].
  destruct (git_hub nm br "github-token") as [e|src] eqn:Hg; [discriminate|].
  destruct (subscript bundle "pipeline") as [e|sec] eqn:Hs; [discriminate|].
  destruct (subscript sec "name") as [e|name0] eqn:Hn; [discriminate|].
  destruct (check_pipeline_name name0) as [e|name] eqn:Hc; [discriminate|].
  assert (name = name0) as ->.
  { destruct name0; cbn in Hc; try discriminate; congruence. }
  intros H; injection H as <-.
  exists tag, bundle, src, name0.
  rewrite Hr, Hnm, Hbr. repeat split; eauto.
Qed.

(** Leaving out null entries keeps a falsy value falsy. *)
Lemma truthy_strip_nulls_false v :
  truthy v = false -> truthy (strip_nulls v) = false.
Proof. destruct v as [| | | |[|kv kvs]]; cbn; auto; discriminate. Qed.

(** ** Claims *)

(** C1 (counterexample): with [environmentType] set to ["prod"] and a
    ["prod"] bundle, assembly succeeds and the resolved tag is ["prod"], but
    the only deployment stage is constructed with environment_type ["qa"]. *)
Lemma C1_deploy_stage_not_resolved_tag :
  exists p,
    assembled "PipelineStack" prod_ctx = inr p /\
    resolve_environment_type prod_ctx = inr (PStr "prod") /\
    map (fun sd => ds_environment_type (sd_stage sd)) (stages p) = ["qa"] /\
    "qa" <> "prod".
Proof. eexists; split; [reflexivity|]. repeat split; discriminate. Qed.

(** C1 (amended): every successful assembly runs exactly one synthesis
    step ("Synth") first, then the five quality-gate steps, then exactly
    one deployment stage, which is constructed with construct id "QA" and
    environment_type "qa" whatever the resolved tag. *)
Theorem C1_pipeline_order id ctx p :
  assembled id ctx = inr p ->
  pipeline_order p =
    NSynth "Synth" :: app (map NPre quality_step_names) [NStage "QA"] /\
  map (fun sd => ds_environment_type (sd_stage sd)) (stages p) = ["qa"].
Proof.
  intros H.
  destruct (assembled_inv _ _ _ H) as (tag & bundle & src & name & _ & _ & _ & ->).
  split; reflexivity.
Qed.

Lemma C1_pipeline_order_witness :
  exists p, assembled "PipelineStack" prod_ctx = inr p /\
    pipeline_order p =
      NSynth "Synth" :: app (map NPre quality_step_names) [NStage "QA"].
Proof.
  eexists. split; [reflexivity|].
  exact (proj1 (C1_pipeline_order "PipelineStack" prod_ctx _ eq_refl)).
Defined.

(** C2: the quality gate assembler returns five steps, named GitSecrets,
    Linter, UnitTests, CfnNag and DependencyAudit in this order, each taking
    the given Source Binding as input. *)
Theorem C2_quality_steps_order_and_input src :
  length (create_code_quality_steps src) = 5%nat /\
  map cb_name (create_code_quality_steps src) = quality_step_names /\
  Forall (fun s => cb_input s = src) (create_code_quality_steps src).
Proof. split; [reflexivity|]. split; [reflexivity|]. repeat constructor. Qed.

(** C9: every quality-gate step uses the one build environment
    STANDARD_7_0 / SMALL / privileged. *)
Theorem C9_shared_build_environment src :
  Forall (fun s => cb_build_environment s = BuildEnvironment STANDARD_7_0 SMALL true)
    (create_code_quality_steps src).
Proof. repeat constructor. Qed.

(** C3: in an assembled pipeline every run command of the Linter step is
    exit-code-tolerant, and no run command of the synth step or of any other
    quality-gate step is. *)
Theorem C3_only_linter_tolerant id ctx p :
  assembled id ctx = inr p ->
  existsb exit_tolerant (ss_commands (synth p)) = false /\
  Forall (fun sd =>
    Forall (fun s =>
      if String.eqb (cb_name s) "Linter"
      then forallb exit_tolerant (cb_commands s) = true
      else existsb exit_tolerant (cb_commands s) = false) (sd_pre sd))
    (stages p).
Proof.
  intros H.
  destruct (assembled_inv _ _ _ H) as (tag & bundle & src & name & _ & _ & _ & ->).
  split; [reflexivity|].
  repeat constructor.
Qed.

Lemma C3_only_linter_tolerant_witness :
  exists p, assembled "PipelineStack" acme_ctx = inr p /\
    existsb exit_tolerant (ss_commands (synth p)) = false.
Proof.
  eexists. split; [reflexivity|].
  exact (proj1 (C3_only_linter_tolerant "PipelineStack" acme_ctx _ eq_refl)).
Defined.

(** C4 (counterexample): with no override and no ["qa"] bundle, the
    resolver does not fail: it yields the tag "qa" and [None] as the
    bundle. Assembly then fails with the TypeError of subscripting [None],
    not with an explicitly validated configuration error. *)
Lemma C4_missing_bundle_not_validated :
  resolve [] = inr (PStr "qa", PNone) /\
  assemble "PipelineStack" [] =
    (["PipelineStack"], inl (TypeError "'NoneType' object is not subscriptable")) /\
  subscript PNone "repository" =
    inl (TypeError "'NoneType' object is not subscriptable").
Proof. repeat split. Qed.

(** C4 (amended): when the resolved tag has no settings bundle, the
    resolver returns [None] without failing; assembly fails with a TypeError
    when [self.context["repository"]] is evaluated, after the stack itself
    is registered and before the pipeline or the deploy stage is. *)
Theorem C4_missing_bundle_type_error id ctx tag :
  resolve_environment_type ctx = inr (PStr tag) ->
  assoc tag ctx = None ->
  resolve ctx = inr (PStr tag, PNone) /\
  assemble id ctx =
    ([id], inl (TypeError "'NoneType' object is not subscriptable")).
Proof.
  intros Ht Ha.
  unfold resolve, assemble, pipeline_stack_init, bind, register, lift.
  cbn -[resolve_environment_type].
  rewrite Ht. cbn. rewrite Ha. split; reflexivity.
Qed.

Lemma C4_missing_bundle_type_error_witness :
  resolve [("environmentType", PStr "dev")] = inr (PStr "dev", PNone).
Proof.
  apply (proj1 (C4_missing_bundle_type_error "PipelineStack"
                  [("environmentType", PStr "dev")] "dev" eq_refl eq_refl)).
Defined.

(** C5: without an environmentType key the resolved tag is "qa"; on the
    acme configuration the resolver yields "qa" and the acme bundle, and
    the assembled pipeline is named "acme-qa". *)
Theorem C5_default_qa :
  (forall ctx, assoc "environmentType" ctx = None ->
     resolve_environment_type ctx = inr (PStr "qa")) /\
  resolve acme_ctx = inr (PStr "qa", acme_qa_bundle) /\
  (exists p, assembled "PipelineStack" acme_ctx = inr p /\
             pipeline_name p = PStr "acme-qa").
Proof.
  split.
  - intros ctx H. unfold resolve_environment_type, try_get_context.
    rewrite H. reflexivity.
  - split; [reflexivity|]. eexists; split; reflexivity.
Qed.

Lemma C5_default_qa_witness :
  resolve_environment_type [("qa", PNone)] = inr (PStr "qa").
Proof. apply (proj1 C5_default_qa). reflexivity. Defined.

(** C6: in an assembled pipeline the synth step takes the Source Binding
    built from the resolved bundle (the one the quality gates take), maps
    ENV_TYPE to the resolved tag, and runs its install commands, among them
    the account resolution, before its single build command, which refers
    to both $ACCOUNT and $ENV_TYPE. *)
Theorem C6_synth_step id ctx p :
  assembled id ctx = inr p ->
  exists tag bundle src c,
    resolve ctx = inr (PStr tag, bundle) /\
    bundle_source bundle = inr src /\
    ss_input (synth p) = src /\
    (forall sd s, In sd (stages p) -> In s (sd_pre sd) -> cb_input s = src) /\
    assoc "ENV_TYPE" (ss_env (synth p)) = Some (PStr tag) /\
    ss_commands (synth p) = [c] /\
    shell_step_script (synth p) = app (ss_install_commands (synth p)) [c] /\
    In account_resolution (ss_install_commands (synth p)) /\
    contains "$ACCOUNT" c = true /\
    contains "$ENV_TYPE" c = true.
Proof.
  intros H.
  destruct (assembled_inv _ _ _ H)
    as (tag & bundle & src & name & Hr & Hs & _ & ->).
  exists tag, bundle, src,
    "cdk synth -c account=$ACCOUNT -c environmentType=$ENV_TYPE".
  do 3 (split; [assumption || reflexivity|]).
  split.
  - cbn. intros sd s [<- | []] Hin.
    pose proof (proj2 (proj2 (C2_quality_steps_order_and_input src))) as Hf.
    rewrite Forall_forall in Hf. exact (Hf s Hin).
  - repeat split; cbn; tauto.
Qed.

Lemma C6_synth_step_witness :
  exists p, assembled "PipelineStack" prod_ctx = inr p /\
    assoc "ENV_TYPE" (ss_env (synth p)) = Some (PStr "prod").
Proof.
  eexists. split; [reflexivity|].
  destruct (C6_synth_step "PipelineStack" prod_ctx _ eq_refl)
    as (tag & bundle & src & c & Hr & _ & _ & _ & He & _).
  injection Hr as <- _. exact He.
Defined.



(** C8 (counterexample): the ["qa"] bundle of [empty_name_ctx] is present
    but its repository.name, repository.branch and pipeline.name are all
    empty strings; the resolver returns it as it is, with no check. *)
Lemma C8_empty_names_returned :
  resolve empty_name_ctx = inr (PStr "qa", empty_name_bundle) /\
  (exists repo, subscript empty_name_bundle "repository" = inr repo /\
                subscript repo "name" = inr (PStr "") /\
                subscript repo "branch" = inr (PStr "")) /\
  (exists sec, subscript empty_name_bundle "pipeline" = inr sec /\
               subscript sec "name" = inr (PStr "")).
Proof.
  split; [reflexivity|].
  split; eexists; repeat split; reflexivity.
Qed.

(** C8 (amended): for a tag present in the configuration, the resolver
    returns the value stored under it, with the null-valued entries of its
    nested dicts left out, and checks nothing else: its repository.name,
    repository.branch and pipeline.name are present and non-empty only when
    the configuration makes them so. *)
Theorem C8_resolver_returns_stored_bundle ctx tag v :
  resolve_environment_type ctx = inr (PStr tag) ->
  assoc tag ctx = Some v ->
  resolve ctx = inr (PStr tag, strip_nulls v).
Proof.
  intros Ht Ha. unfold resolve. rewrite Ht. cbn. rewrite Ha. reflexivity.
Qed.

Lemma C8_resolver_returns_stored_bundle_witness :
  resolve empty_name_ctx = inr (PStr "qa", empty_name_bundle).
Proof.
  apply (C8_resolver_returns_stored_bundle empty_name_ctx "qa" empty_name_bundle);
    reflexivity.
Defined.

(** C10: a falsy environmentType value, such as the empty string, also
    resolves to the fallback tag "qa". *)
Theorem C10_falsy_override_defaults ctx v :
  assoc "environmentType" ctx = Some v ->
  truthy v = false ->
  resolve_environment_type ctx = inr (PStr "qa").
Proof.
  intros Ha Hf. unfold resolve_environment_type, try_get_context.
  rewrite Ha, (truthy_strip_nulls_false v Hf). reflexivity.
Qed.

Lemma C10_falsy_override_defaults_witness :
  resolve_environment_type [("environmentType", PStr "")] = inr (PStr "qa").
Proof.
  apply (C10_falsy_override_defaults _ (PStr "")); reflexivity.
Defined.

(** ** Further properties of PipelineStack *)

Lemma git_hub_authentication r b a src :
  git_hub r b a = inr src -> authentication src = a.
Proof.
  destruct r, b; cbn; try discriminate.
  destruct (Nat.eqb _ 1); [|discriminate]. now intros [= <-].
Qed.

(** X4: failures of the Source Binding come first. When the bundle lacks
    repository, repository.name or repository.branch, or when
    [Source.git_hub] refuses them (not strings, or a repository name that
    is not "<owner>/<repo>"), the constructor raises that error, even if
    the pipeline section is missing too, and only the stack is registered. *)
Theorem X4_source_error_first id ctx env bundle e :
  resolve ctx = inr (env, bundle) ->
  bundle_source bundle = inl e ->
  assemble id ctx = ([id], inl e).
Proof.
  intros Hr Hs. unfold resolve in Hr. unfold bundle_source in Hs.
  unfold assemble, pipeline_stack_init, bind, register, lift.
  cbn -[resolve_environment_type try_get_context subscript git_hub].
  destruct (resolve_environment_type ctx) as [e'|env']; [discriminate|].
  destruct (try_get_context ctx env') as [e'|b]; [discriminate|].
  injection Hr as -> ->.
  destruct (subscript bundle "repository") as [e'|r]; [injection Hs as ->; reflexivity|].
  destruct (subscript r "name") as [e'|n]; [injection Hs as ->; reflexivity|].
  destruct (subscript r "branch") as [e'|br]; [injection Hs as ->; reflexivity|].
  rewrite Hs. reflexivity.
Qed.

Lemma X4_source_error_first_witness :
  assemble "PipelineStack" [("qa", null_sections_bundle)] =
    (["PipelineStack"], inl (KeyError "repository")).
Proof.
  apply (X4_source_error_first _ _ (PStr "qa") (PDict [])); reflexivity.
Defined.



(** X7: the five quality-gate steps have pairwise distinct step names and
    pairwise distinct CodeBuild project names. *)
Theorem X7_distinct_step_and_project_names src :
  NoDup (map cb_name (create_code_quality_steps src)) /\
  NoDup (map cb_project_name (create_code_quality_steps src)).
Proof. split; repeat constructor; cbn; intuition discriminate. Qed.

(** X8: in an assembled pipeline the synth step and every quality-gate
    step read the source through the secret "github-token". *)
Theorem X8_github_token_everywhere id ctx p :
  assembled id ctx = inr p ->
  authentication (ss_input (synth p)) = "github-token" /\
  Forall (fun sd => Forall (fun s => authentication (cb_input s) = "github-token")
                      (sd_pre sd)) (stages p).
Proof.
  intros H.
  destruct (assembled_inv _ _ _ H) as (tag & bundle & src & name & _ & Hs & _ & ->).
  unfold bundle_source in Hs.
  destruct (subscript bundle "repository") as [e|r]; [discriminate|].
  destruct (subscript r "name") as [e|n]; [discriminate|].
  destruct (subscript r "branch") as [e|br]; [discriminate|].
  apply git_hub_authentication in Hs.
  split; [exact Hs|]. repeat constructor; exact Hs.
Qed.

Lemma X8_github_token_everywhere_witness :
  exists p, assembled "PipelineStack" acme_ctx = inr p /\
    authentication (ss_input (synth p)) = "github-token".
Proof.
  eexists. split; [reflexivity|].
  exact (proj1 (X8_github_token_everywhere "PipelineStack" acme_ctx _ eq_refl)).
Defined.
